(** * Multi-agent cloud architecture planning: a shallow embedding

    The development follows
    [Python_Exam/Test Agent Orchestration for Cloud Architecture Planning.py]:
    the [RequirementsAnalyzer] agent, the [CloudArchitect] agent and the
    [MultiAgentOrchestrator] that runs one after the other.

    Conventions of the embedding.
    - A Python [str] is a [string]; a character above 127 stands for a byte
      of the UTF-8 encoding.  [str.lower] is modelled on the letters A-Z.  The
      only use the program makes of lowered text is to search the keywords
      "ecommerce", "chatbot" and "expense" in it, and no character outside
      ASCII lower-cases to a letter of these keywords, so the tests decided
      by the model are the tests decided by the program.
    - A [float] is a binary64 primitive float.
    - The three [async def] methods are awaited one after the other by a
      single coroutine; they are modelled as sequential calls.
    - [logger.info] appends a message to a log that is threaded through every
      call, in a monad that also carries the possibility of a raised
      exception. *)

From Stdlib Require Import Bool List ZArith Ascii String PrimFloat Lia Sorted.
Import ListNotations.

Set Warnings "-inexact-float".

Local Open Scope list_scope.
Local Open Scope string_scope.

(** ** Python strings *)

Module PyStr.

(** [c.lower()] for one character. *)
Definition lower_char (c : ascii) : ascii :=
  let n := nat_of_ascii c in
  if (65 <=? n)%nat && (n <=? 90)%nat then ascii_of_nat (n + 32) else c.

(** [s.lower()]. *)
Fixpoint lower (s : string) : string :=
  match s with
  | EmptyString => EmptyString
  | String c rest => String (lower_char c) (lower rest)
  end.

(** [needle in hay] on two strings: substring search. *)
Fixpoint str_in (needle hay : string) : bool :=
  String.prefix needle hay
  || match hay with
     | EmptyString => false
     | String _ rest => str_in needle rest
     end.

(** The meaning of the search: [needle] occurs somewhere inside [hay]. *)
Definition Occurs (needle hay : string) : Prop :=
  exists pre post, hay = pre ++ needle ++ post.

(** [any(needle in x for x in xs)]. *)
Definition any_in (needle : string) (xs : list string) : bool :=
  existsb (str_in needle) xs.

(** ASCII white space, the characters [str.isspace] accepts below 128. *)
Definition is_space (c : ascii) : bool :=
  let n := nat_of_ascii c in
  ((9 <=? n)%nat && (n <=? 13)%nat) || ((28 <=? n)%nat && (n <=? 32)%nat).

(** Empty, or made of white space only. *)
Fixpoint blank (s : string) : bool :=
  match s with
  | EmptyString => true
  | String c rest => is_space c && blank rest
  end.

End PyStr.

(** ** The log and the monad of agent calls *)

(** A raised Python exception, identified by the name of its class. *)
Inductive PyExn : Type :=
| Exn (class_name : string).

Inductive outcome (A : Type) : Type :=
| Returned (a : A)
| Raised (e : PyExn).

Arguments Returned {A} a.
Arguments Raised {A} e.

Definition Log : Type := list string.

Definition M (A : Type) : Type := Log -> outcome A * Log.

Definition ret {A} (a : A) : M A := fun l => (Returned a, l).

Definition bind {A B} (m : M A) (k : A -> M B) : M B :=
  fun l =>
    match m l with
    | (Returned a, l') => k a l'
    | (Raised e, l') => (Raised e, l')
    end.

Notation "x <- m ;; k" := (bind m (fun x => k))
  (at level 61, m at next level, right associativity).
Notation "m ;;; k" := (bind m (fun _ => k))
  (at level 61, right associativity).

(** [logger.info(msg)] with the level set to INFO. *)
Definition logger_info (msg : string) : M unit :=
  fun l => (Returned tt, (l ++ [msg])%list).

(** The value a call produces from a given log, and the log it leaves. *)
Definition result_of {A} (m : M A) (l : Log) : outcome A := fst (m l).
Definition log_after {A} (m : M A) (l : Log) : Log := snd (m l).

(** ** Data model *)

Inductive ArchitectureType : Type :=
| ECOMMERCE
| CHATBOT
| EXPENSE_TRACKER.

Inductive CloudProvider : Type :=
| AWS
| AZURE
| GCP.

Module ArchitectureTypeEnum.
Definition value (t : ArchitectureType) : string :=
  match t with
  | ECOMMERCE => "ecommerce"
  | CHATBOT => "chatbot"
  | EXPENSE_TRACKER => "expense_tracker"
  end.
End ArchitectureTypeEnum.

Module CloudProviderEnum.
Definition value (p : CloudProvider) : string :=
  match p with
  | AWS => "aws"
  | AZURE => "azure"
  | GCP => "gcp"
  end.

Definition eqb (p q : CloudProvider) : bool :=
  match p, q with
  | AWS, AWS | AZURE, AZURE | GCP, GCP => true
  | _, _ => false
  end.
End CloudProviderEnum.

(** A value of a [Dict[str, Any]]: the program stores strings and integers. *)
Inductive PyVal : Type :=
| VStr (s : string)
| VInt (z : Z).

Module BusinessRequirement.
Record t : Type := mk {
  description : string;
  priority : Z;
  category : string;
  constraints : list string
}.
End BusinessRequirement.

Module TechnicalRequirement.
Record t : Type := mk {
  component : string;
  requirements : list string;
  dependencies : list string;
  performance_needs : list (string * PyVal)
}.
End TechnicalRequirement.

Module CloudService.
Record t : Type := mk {
  name : string;
  provider : CloudProvider;
  service_type : string;
  description : string;
  cost_estimate : string;
  scalability : string;
  security_features : list string
}.
End CloudService.

Module ArchitectureRecommendation.
Record t : Type := mk {
  architecture_type : ArchitectureType;
  services : list CloudService.t;
  deployment_strategy : string;
  cost_estimate : string;
  security_considerations : list string;
  scalability_plan : string;
  monitoring_strategy : string;
  confidence_score : float
}.
End ArchitectureRecommendation.

(** The dictionary [analyze_requirements] builds; it always has these four
    keys. *)
Module Requirements.
Record t : Type := mk {
  business_requirements : list BusinessRequirement.t;
  technical_requirements : list TechnicalRequirement.t;
  constraints : list string;
  success_metrics : list string
}.
End Requirements.

(** The dictionary [process_architecture_request] returns. *)
Module FinalRecommendation.
Record t : Type := mk {
  problem_description : string;
  requirements : Requirements.t;
  architecture : ArchitectureRecommendation.t;
  confidence_score : float;
  next_steps : list string
}.
End FinalRecommendation.

Import PyStr.

(** ** The Requirements Analyzer agent *)

Module RequirementsAnalyzer.

Record t : Type := mk {
  name : string;
  expertise : list string
}.

Definition __init__ : t :=
  mk "Requirements Analyzer"
     ["business analysis"; "requirement gathering"; "stakeholder communication"].

(** The dictionary as it is created, before any branch fills it. *)
Definition no_requirements : Requirements.t :=
  Requirements.mk [] [] [] [].

(** What the branch of "ecommerce" stores. *)
Definition ecommerce_requirements : Requirements.t :=
  Requirements.mk
    [ BusinessRequirement.mk "Handle 1000 daily users" 5 "scalability" ["high_availability"];
      BusinessRequirement.mk "Secure payment processing" 5 "security" ["PCI_DSS_compliance"];
      BusinessRequirement.mk "Product catalog management" 4 "functionality" ["search_capability"];
      BusinessRequirement.mk "Shopping cart functionality" 4 "functionality" ["session_management"];
      BusinessRequirement.mk "Admin dashboard" 3 "functionality" ["user_management"] ]
    [ TechnicalRequirement.mk "web_application" ["responsive_design"; "mobile_support"] []
        [("response_time", VStr "<2s")];
      TechnicalRequirement.mk "database" ["ACID_compliance"; "backup_recovery"] ["web_application"]
        [("concurrent_users", VInt 1000)];
      TechnicalRequirement.mk "payment_gateway" ["PCI_compliance"; "encryption"] ["web_application"]
        [("transaction_volume", VStr "high")];
      TechnicalRequirement.mk "file_storage" ["image_optimization"; "CDN"] ["web_application"]
        [("storage_capacity", VStr "unlimited")] ]
    ["budget_conscious"; "time_to_market"]
    ["user_satisfaction"; "conversion_rate"; "uptime"].

(** What the branch of "chatbot" stores. *)
Definition chatbot_requirements : Requirements.t :=
  Requirements.mk
    [ BusinessRequirement.mk "Handle 500+ conversations daily" 5 "scalability" ["real_time_processing"];
      BusinessRequirement.mk "CRM integration" 4 "integration" ["api_compatibility"];
      BusinessRequirement.mk "Human escalation" 3 "functionality" ["seamless_handoff"];
      BusinessRequirement.mk "Multi-language support" 3 "functionality" ["internationalization"] ]
    [ TechnicalRequirement.mk "ai_service" ["natural_language_processing"; "sentiment_analysis"] []
        [("response_time", VStr "<1s")];
      TechnicalRequirement.mk "conversation_storage" ["real_time_access"; "privacy_compliance"] ["ai_service"]
        [("concurrent_conversations", VInt 500)];
      TechnicalRequirement.mk "crm_integration" ["api_connectivity"; "data_sync"] ["ai_service"]
        [("sync_frequency", VStr "real_time")] ]
    ["ai_model_accuracy"; "response_time"]
    ["resolution_rate"; "customer_satisfaction"; "escalation_rate"].

(** What the branch of "expense" stores. *)
Definition expense_requirements : Requirements.t :=
  Requirements.mk
    [ BusinessRequirement.mk "Mobile app support" 5 "functionality" ["cross_platform"];
      BusinessRequirement.mk "Receipt photo processing" 4 "functionality" ["ocr_capability"];
      BusinessRequirement.mk "Approval workflow" 4 "functionality" ["notification_system"];
      BusinessRequirement.mk "Payroll integration" 3 "integration" ["secure_data_transfer"] ]
    [ TechnicalRequirement.mk "mobile_backend" ["rest_api"; "authentication"] []
        [("concurrent_users", VInt 500)];
      TechnicalRequirement.mk "image_processing" ["ocr_service"; "image_storage"] ["mobile_backend"]
        [("processing_time", VStr "<5s")];
      TechnicalRequirement.mk "workflow_engine" ["approval_routing"; "notifications"] ["mobile_backend"]
        [("approval_time", VStr "<24h")];
      TechnicalRequirement.mk "payroll_integration" ["secure_api"; "data_validation"] ["workflow_engine"]
        [("sync_frequency", VStr "daily")] ]
    ["mobile_performance"; "data_privacy"]
    ["user_adoption"; "processing_accuracy"; "approval_efficiency"].

(** [analyze_requirements]: one log line, then the chain of
    [if]/[elif] on the lowered description; with no branch taken the
    dictionary is returned as created. *)
Definition analyze_requirements (self : t) (problem_description : string)
  : M Requirements.t :=
  logger_info (name self ++ ": Analyzing requirements for: " ++ problem_description) ;;;
  ret (if str_in "ecommerce" (lower problem_description) then ecommerce_requirements
       else if str_in "chatbot" (lower problem_description) then chatbot_requirements
       else if str_in "expense" (lower problem_description) then expense_requirements
       else no_requirements).

End RequirementsAnalyzer.

(** ** The Cloud Architect agent *)

Module CloudArchitect.

Record t : Type := mk {
  name : string;
  expertise : list string
}.

Definition __init__ : t :=
  mk "Cloud Architect"
     ["cloud_design"; "scalability"; "cost_optimization"; "multi_cloud"].

Definition _design_ecommerce_architecture (provider : CloudProvider)
  : list CloudService.t :=
  if CloudProviderEnum.eqb provider AWS then
    [ CloudService.mk "Amazon EC2" AWS "compute" "Web application servers"
        "$200-500/month" "Auto Scaling" ["VPC"; "Security Groups"];
      CloudService.mk "Amazon RDS" AWS "database" "MySQL/PostgreSQL database"
        "$100-300/month" "Read replicas" ["Encryption at rest"; "VPC"];
      CloudService.mk "Amazon S3" AWS "storage" "Product images and static assets"
        "$50-150/month" "Unlimited" ["Bucket policies"; "Encryption"];
      CloudService.mk "CloudFront" AWS "networking" "CDN for global content delivery"
        "$20-100/month" "Global" ["DDoS protection"; "SSL/TLS"];
      CloudService.mk "Application Load Balancer" AWS "networking"
        "Traffic distribution and SSL termination"
        "$30-80/month" "Auto Scaling" ["Health checks"; "SSL termination"];
      CloudService.mk "AWS WAF" AWS "security" "Web application firewall"
        "$10-50/month" "Auto Scaling" ["OWASP protection"; "DDoS mitigation"] ]
  else [].

Definition _design_chatbot_architecture (provider : CloudProvider)
  : list CloudService.t :=
  if CloudProviderEnum.eqb provider AWS then
    [ CloudService.mk "AWS Lambda" AWS "compute" "Serverless chatbot functions"
        "$50-200/month" "Auto Scaling" ["IAM roles"; "VPC"];
      CloudService.mk "Amazon Lex" AWS "ai" "Natural language understanding"
        "$100-300/month" "Auto Scaling" ["Data encryption"; "Access control"];
      CloudService.mk "Amazon DynamoDB" AWS "database" "Conversation storage"
        "$80-200/month" "Auto Scaling" ["Encryption at rest"; "Point-in-time recovery"];
      CloudService.mk "Amazon API Gateway" AWS "networking" "API management"
        "$30-100/month" "Auto Scaling" ["API keys"; "Rate limiting"];
      CloudService.mk "Amazon SNS" AWS "messaging" "Notifications and escalations"
        "$20-50/month" "Auto Scaling" ["Message encryption"; "Access control"] ]
  else [].

Definition _design_expense_tracker_architecture (provider : CloudProvider)
  : list CloudService.t :=
  if CloudProviderEnum.eqb provider AWS then
    [ CloudService.mk "AWS Lambda" AWS "compute" "Serverless backend API"
        "$50-150/month" "Auto Scaling" ["IAM roles"; "VPC"];
      CloudService.mk "Amazon S3" AWS "storage" "Receipt image storage"
        "$30-100/month" "Unlimited" ["Bucket policies"; "Encryption"];
      CloudService.mk "Amazon Textract" AWS "ai" "OCR for receipt processing"
        "$100-300/month" "Auto Scaling" ["Data encryption"; "Access control"];
      CloudService.mk "Amazon RDS" AWS "database" "Expense data storage"
        "$80-200/month" "Read replicas" ["Encryption at rest"; "VPC"];
      CloudService.mk "Amazon SNS" AWS "messaging" "Approval notifications"
        "$20-50/month" "Auto Scaling" ["Message encryption"; "Access control"] ]
  else [].

(** [any(tag in constraint for req in business_requirements
         for constraint in req.constraints)]. *)
Definition any_business_constraint (tag : string) (requirements : Requirements.t)
  : bool :=
  existsb (fun req => any_in tag (BusinessRequirement.constraints req))
          (Requirements.business_requirements requirements).

(** [any(tag in constraint for constraint in requirements["constraints"])]. *)
Definition any_constraint (tag : string) (requirements : Requirements.t) : bool :=
  any_in tag (Requirements.constraints requirements).

(** [any(word in req.description.lower() for req in business_requirements)]. *)
Definition any_description (word : string) (requirements : Requirements.t) : bool :=
  existsb (fun req => str_in word (lower (BusinessRequirement.description req)))
          (Requirements.business_requirements requirements).

Definition _get_deployment_strategy (requirements : Requirements.t) : string :=
  if any_business_constraint "high_availability" requirements then
    "Blue-Green deployment with zero downtime"
  else if any_constraint "budget_conscious" requirements then
    "Rolling deployment with cost optimization"
  else
    "Canary deployment with gradual rollout".

Definition _estimate_costs (services : list CloudService.t) : string :=
  "$500-1500/month depending on usage".

Definition _get_security_considerations (requirements : Requirements.t)
  : list string :=
  let considerations :=
    ["Data encryption in transit and at rest";
     "Identity and access management";
     "Network security"] in
  let considerations :=
    if any_business_constraint "PCI_DSS_compliance" requirements
    then (considerations ++ ["PCI DSS compliance for payment processing"])%list
    else considerations in
  let considerations :=
    if any_constraint "data_privacy" requirements
    then (considerations ++ ["GDPR compliance for data privacy"])%list
    else considerations in
  considerations.

Definition _get_scalability_plan (requirements : Requirements.t) : string :=
  "Auto-scaling based on demand with horizontal scaling capabilities and load balancing".

Definition _get_monitoring_strategy (requirements : Requirements.t) : string :=
  "Comprehensive monitoring with CloudWatch, application performance monitoring, and alerting".

(** The service list [design_architecture] settles on: the keyword is
    searched in the lowered descriptions of the business requirements. *)
Definition select_services (requirements : Requirements.t)
           (preferred_provider : CloudProvider) : list CloudService.t :=
  if any_description "ecommerce" requirements then
    _design_ecommerce_architecture preferred_provider
  else if any_description "chatbot" requirements then
    _design_chatbot_architecture preferred_provider
  else if any_description "expense" requirements then
    _design_expense_tracker_architecture preferred_provider
  else [].

Definition design_architecture (self : t) (requirements : Requirements.t)
           (preferred_provider : CloudProvider)
  : M ArchitectureRecommendation.t :=
  logger_info (name self ++ ": Designing architecture for "
               ++ CloudProviderEnum.value preferred_provider) ;;;
  let services := select_services requirements preferred_provider in
  ret (ArchitectureRecommendation.mk
         ECOMMERCE
         services
         (_get_deployment_strategy requirements)
         (_estimate_costs services)
         (_get_security_considerations requirements)
         (_get_scalability_plan requirements)
         (_get_monitoring_strategy requirements)
         0.85%float).

End CloudArchitect.

(** ** The orchestrator *)

Module MultiAgentOrchestrator.

Record t : Type := mk {
  requirements_analyzer : RequirementsAnalyzer.t;
  cloud_architect : CloudArchitect.t
}.

Definition __init__ : t :=
  mk RequirementsAnalyzer.__init__ CloudArchitect.__init__.

Definition process_architecture_request (self : t) (problem_description : string)
           (preferred_provider : CloudProvider) : M FinalRecommendation.t :=
  logger_info "Starting multi-agent architecture planning process" ;;;
  requirements <-
    RequirementsAnalyzer.analyze_requirements
      (requirements_analyzer self) problem_description ;;
  architecture <-
    CloudArchitect.design_architecture
      (cloud_architect self) requirements preferred_provider ;;
  ret (FinalRecommendation.mk
         problem_description
         requirements
         architecture
         (ArchitectureRecommendation.confidence_score architecture)
         ["Review and approve architecture design";
          "Set up development environment";
          "Implement security controls";
          "Plan deployment strategy"]).

End MultiAgentOrchestrator.

(** * Vocabulary of the properties *)

Import RequirementsAnalyzer CloudArchitect MultiAgentOrchestrator.

(** The requirement dictionary chosen by the chain of branches. *)
Definition extracted (problem_description : string) : Requirements.t :=
  if str_in "ecommerce" (lower problem_description) then ecommerce_requirements
  else if str_in "chatbot" (lower problem_description) then chatbot_requirements
  else if str_in "expense" (lower problem_description) then expense_requirements
  else no_requirements.

(** The recommendation assembled by [design_architecture]. *)
Definition designed (requirements : Requirements.t) (p : CloudProvider)
  : ArchitectureRecommendation.t :=
  ArchitectureRecommendation.mk
    ECOMMERCE
    (select_services requirements p)
    (_get_deployment_strategy requirements)
    (_estimate_costs (select_services requirements p))
    (_get_security_considerations requirements)
    (_get_scalability_plan requirements)
    (_get_monitoring_strategy requirements)
    0.85%float.

Definition next_steps_checklist : list string :=
  ["Review and approve architecture design";
   "Set up development environment";
   "Implement security controls";
   "Plan deployment strategy"].

(** The order in which [analyze_requirements] tries the categories. *)
Definition category_order : list ArchitectureType :=
  [ECOMMERCE; CHATBOT; EXPENSE_TRACKER].

(** The keyword each branch searches in the lowered description. *)
Definition keyword (c : ArchitectureType) : string :=
  match c with
  | ECOMMERCE => "ecommerce"
  | CHATBOT => "chatbot"
  | EXPENSE_TRACKER => "expense"
  end.

(** The requirement dictionary each branch stores. *)
Definition template (c : ArchitectureType) : Requirements.t :=
  match c with
  | ECOMMERCE => ecommerce_requirements
  | CHATBOT => chatbot_requirements
  | EXPENSE_TRACKER => expense_requirements
  end.

(** The first category of [category_order] whose keyword occurs. *)
Definition first_match (problem_description : string) : option ArchitectureType :=
  find (fun c => str_in (keyword c) (lower problem_description)) category_order.

(** Some constraint of some business requirement contains [tag]. *)
Definition business_tagged (tag : string) (rs : Requirements.t) : Prop :=
  exists req c,
    In req (Requirements.business_requirements rs)
    /\ In c (BusinessRequirement.constraints req)
    /\ Occurs tag c.

(** Some constraint of the requirement set itself contains [tag]. *)
Definition set_tagged (tag : string) (rs : Requirements.t) : Prop :=
  exists c, In c (Requirements.constraints rs) /\ Occurs tag c.

(** A requirement set whose own constraint tags name high availability. *)
Definition high_availability_at_set_level : Requirements.t :=
  Requirements.mk [] [] ["high_availability"] [].

Definition baseline_considerations : list string :=
  ["Data encryption in transit and at rest";
   "Identity and access management";
   "Network security"].

Definition payment_item : string := "PCI DSS compliance for payment processing".
Definition privacy_item : string := "GDPR compliance for data privacy".

(** Every consideration the function can produce, in the order it adds them. *)
Definition consideration_order : list string :=
  (baseline_considerations ++ [payment_item; privacy_item])%list.

(** A requirement set whose own constraint tags name PCI-DSS. *)
Definition pci_at_set_level : Requirements.t :=
  Requirements.mk [] [] ["PCI_DSS_compliance"] [].

(** Some service of the list has the given service type. *)
Definition offers (service_type : string) (services : list CloudService.t) : bool :=
  existsb (fun s => String.eqb (CloudService.service_type s) service_type) services.

(** The aggregate the specification describes for its Aggregating state:
    the equal-weight mean of the three mandatory-stage confidences, times
    0.9 for each specialist that failed, floored at 0. *)
Definition spec_overall_confidence
           (classification extraction synthesis : float) (failed_specialists : nat)
  : float :=
  let mean := ((classification + extraction + synthesis) / 3)%float in
  let penalised := Nat.iter failed_specialists (fun x => (x * 0.9)%float) mean in
  if (penalised <? 0)%float then 0%float else penalised.

(** Some business requirement has a description that contains [word] once
    lowered. *)
Definition described (word : string) (rs : Requirements.t) : Prop :=
  exists req,
    In req (Requirements.business_requirements rs)
    /\ Occurs word (lower (BusinessRequirement.description req)).

(** Every dependency of a technical requirement names a component listed
    before it. *)
Definition dependencies_earlier (ts : list TechnicalRequirement.t) : Prop :=
  forall before t after dep,
    ts = (before ++ t :: after)%list ->
    In dep (TechnicalRequirement.dependencies t) ->
    In dep (map TechnicalRequirement.component before).

(** The same, decided from left to right with the components seen so far. *)
Fixpoint dependencies_defined (seen : list string) (ts : list TechnicalRequirement.t)
  : bool :=
  match ts with
  | [] => true
  | t :: rest =>
      forallb (fun dep => existsb (String.eqb dep) seen)
              (TechnicalRequirement.dependencies t)
      && dependencies_defined (TechnicalRequirement.component t :: seen) rest
  end.

(** The three messages a run of the orchestrator logs. *)
Definition run_messages (o : MultiAgentOrchestrator.t) (d : string) (p : CloudProvider)
  : list string :=
  ["Starting multi-agent architecture planning process";
   RequirementsAnalyzer.name (requirements_analyzer o)
     ++ ": Analyzing requirements for: " ++ d;
   CloudArchitect.name (cloud_architect o)
     ++ ": Designing architecture for " ++ CloudProviderEnum.value p].

(** * Properties *)

(** ** Substring search *)

Section Substring.

Lemma prefix_iff (p s : string) :
  String.prefix p s = true <-> exists post, s = p ++ post.
Proof.
  revert s; induction p as [|a p IH]; intros s.
  - split; [intros _; exists s; reflexivity | destruct s; reflexivity].
  - destruct s as [|b s]; simpl.
    + split; [discriminate | intros [post H]; discriminate].
    + destruct (ascii_dec a b) as [->|Hab].
      * rewrite IH. split; intros [post H]; exists post.
        -- now rewrite H.
        -- now inversion H.
      * split; [discriminate | intros [post H]; simpl in H; congruence].
Qed.

Lemma str_in_unfold (n h : string) :
  str_in n h = String.prefix n h
               || match h with
                  | EmptyString => false
                  | String _ rest => str_in n rest
                  end.
Proof. destruct h; reflexivity. Qed.

Lemma str_in_iff (n h : string) : str_in n h = true <-> Occurs n h.
Proof.
  unfold Occurs. induction h as [|c h IH].
  - rewrite str_in_unfold, orb_false_r, prefix_iff. split.
    + intros [post H]. exists "", post. exact H.
    + intros [pre [post H]]. destruct pre; [exists post; exact H | discriminate].
  - rewrite str_in_unfold, orb_true_iff, prefix_iff, IH. split.
    + intros [[post H] | [pre [post H]]].
      * exists "", post. exact H.
      * exists (String c pre), post. simpl. now rewrite H.
    + intros [pre [post H]]. destruct pre as [|x pre].
      * left. exists post. exact H.
      * right. exists pre, post. simpl in H. now inversion H.
Qed.

Lemma str_in_false_iff (n h : string) : str_in n h = false <-> ~ Occurs n h.
Proof.
  rewrite <- str_in_iff. destruct (str_in n h); split; congruence.
Qed.

Lemma any_in_iff (n : string) (xs : list string) :
  any_in n xs = true <-> exists x, In x xs /\ Occurs n x.
Proof.
  unfold any_in. rewrite existsb_exists.
  split; intros [x [Hin H]]; exists x; split; auto; now apply str_in_iff.
Qed.

(** White space is left alone by [lower] and starts no keyword. *)
Lemma lower_char_space (c : ascii) : is_space c = true -> lower_char c = c.
Proof.
  unfold is_space, lower_char. intros H.
  destruct ((65 <=? nat_of_ascii c)%nat && (nat_of_ascii c <=? 90)%nat) eqn:E;
    [|reflexivity].
  apply andb_true_iff in E as [E1 E2].
  apply Nat.leb_le in E1. apply Nat.leb_le in E2.
  apply orb_true_iff in H as [H|H]; apply andb_true_iff in H as [H1 H2];
    apply Nat.leb_le in H1; apply Nat.leb_le in H2; lia.
Qed.

Lemma str_in_blank (a : ascii) (k d : string) :
  is_space a = false -> blank d = true -> str_in (String a k) (lower d) = false.
Proof.
  intros Ha. induction d as [|c d IH]; intros Hd; [reflexivity|].
  simpl in Hd. apply andb_true_iff in Hd as [Hc Hd].
  change (lower (String c d)) with (String (lower_char c) (lower d)).
  rewrite str_in_unfold, (IH Hd), orb_false_r, (lower_char_space _ Hc).
  simpl. destruct (ascii_dec a c) as [->|]; [congruence | reflexivity].
Qed.

End Substring.

(** ** What a call returns *)

Section Runs.

Variable analyzer : RequirementsAnalyzer.t.
Variable architect : CloudArchitect.t.
Variable orchestrator : MultiAgentOrchestrator.t.

Lemma analyze_requirements_returns (d : string) (l : Log) :
  result_of (analyze_requirements analyzer d) l = Returned (extracted d).
Proof. reflexivity. Qed.

Lemma design_architecture_returns (rs : Requirements.t) (p : CloudProvider) (l : Log) :
  result_of (design_architecture architect rs p) l = Returned (designed rs p).
Proof. reflexivity. Qed.

Lemma process_architecture_request_returns (d : string) (p : CloudProvider) (l : Log) :
  result_of (process_architecture_request orchestrator d p) l
  = Returned (FinalRecommendation.mk d (extracted d) (designed (extracted d) p)
                0.85%float next_steps_checklist).
Proof. reflexivity. Qed.

End Runs.

(** ** Category detection *)

Lemma extracted_first_match (d : string) :
  extracted d = match first_match d with
                | Some c => template c
                | None => no_requirements
                end.
Proof.
  unfold extracted, first_match; simpl.
  destruct (str_in "ecommerce" (lower d)); [reflexivity|].
  destruct (str_in "chatbot" (lower d)); [reflexivity|].
  destruct (str_in "expense" (lower d)); reflexivity.
Qed.

Lemma first_match_ecommerce (d : string) :
  Occurs "ecommerce" (lower d) -> first_match d = Some ECOMMERCE.
Proof.
  intros H. apply str_in_iff in H. unfold first_match; simpl. now rewrite H.
Qed.

Lemma first_match_none (d : string) :
  first_match d = None <->
  ~ Occurs "ecommerce" (lower d) /\ ~ Occurs "chatbot" (lower d)
  /\ ~ Occurs "expense" (lower d).
Proof.
  rewrite <- !str_in_false_iff. unfold first_match; simpl.
  destruct (str_in "ecommerce" (lower d)), (str_in "chatbot" (lower d)),
    (str_in "expense" (lower d)); intuition congruence.
Qed.

Lemma template_injective (c c' : ArchitectureType) :
  template c = template c' -> c = c'.
Proof. destruct c, c'; simpl; intros H; try reflexivity; discriminate H. Qed.

(** A description naming two categories gets the requirements of the one
    tried first. *)
Example ecommerce_before_chatbot (a : RequirementsAnalyzer.t) (l : Log) :
  result_of (analyze_requirements a "A chatbot for our Ecommerce shop") l
  = Returned ecommerce_requirements.
Proof. reflexivity. Qed.

(** The scenario of the program's own [main] spells the category with a
    hyphen and matches no branch. *)
Example main_scenario_matches_nothing :
  first_match
    "Simple E-commerce Site - Online store for small business (1000 daily users) with product catalog, shopping cart, payment processing, and basic admin dashboard"
  = None.
Proof. reflexivity. Qed.

(** C10. Category detection is first-match-wins over the fixed order
    e-commerce, chatbot, expense tracker: whenever [c] is the first category
    of that order whose keyword occurs in the lowered description, whatever
    later keywords also occur, requirements analysis returns the requirement
    set of [c]. *)
Theorem C10_first_match_wins
        (a : RequirementsAnalyzer.t) (d : string) (l : Log) (c : ArchitectureType) :
  first_match d = Some c ->
  result_of (analyze_requirements a d) l = Returned (template c).
Proof.
  intros H. rewrite analyze_requirements_returns, extracted_first_match, H.
  reflexivity.
Qed.

Lemma C10_first_match_wins_witness :
  first_match "ecommerce site with a chatbot and expense reports" = Some ECOMMERCE
  /\ result_of (analyze_requirements RequirementsAnalyzer.__init__
                  "ecommerce site with a chatbot and expense reports") []
     = Returned ecommerce_requirements.
Proof.
  split; [reflexivity|].
  apply (C10_first_match_wins RequirementsAnalyzer.__init__
           "ecommerce site with a chatbot and expense reports" [] ECOMMERCE).
  reflexivity.
Defined.

(** ** The category label of the recommendation *)

(** C1. The label of the recommendation does not follow the category whose
    requirements were extracted: on a chatbot description the chatbot branch
    supplies the requirements and the recommendation is labelled
    e-commerce, the constant written in [design_architecture]. *)
Theorem C1_label_fixed_to_ecommerce :
  first_match "Customer Support Chatbot" = Some CHATBOT
  /\ exists r,
       result_of (process_architecture_request MultiAgentOrchestrator.__init__
                    "Customer Support Chatbot" AWS) []
       = Returned r
       /\ FinalRecommendation.requirements r = chatbot_requirements
       /\ ArchitectureRecommendation.architecture_type
            (FinalRecommendation.architecture r) = ECOMMERCE.
Proof.
  split; [reflexivity|].
  eexists. rewrite process_architecture_request_returns.
  split; [reflexivity|]. split; reflexivity.
Qed.

(** ** Determinism *)

(** C9. The pipeline is deterministic: two runs on the same description and
    provider return the same recommendation, whatever was logged before
    each run and whichever orchestrator object carries it out. *)
Theorem C9_pipeline_deterministic
        (o1 o2 : MultiAgentOrchestrator.t) (d : string) (p : CloudProvider)
        (l1 l2 : Log) :
  result_of (process_architecture_request o1 d p) l1
  = result_of (process_architecture_request o2 d p) l2.
Proof.
  rewrite (process_architecture_request_returns o1 d p l1).
  rewrite (process_architecture_request_returns o2 d p l2).
  reflexivity.
Qed.

(** Two runs in a row: the second starts from the log the first one left. *)
Corollary second_run_same_result
          (o : MultiAgentOrchestrator.t) (d : string) (p : CloudProvider) (l : Log) :
  result_of (process_architecture_request o d p)
            (log_after (process_architecture_request o d p) l)
  = result_of (process_architecture_request o d p) l.
Proof. now rewrite !process_architecture_request_returns. Qed.

(** ** Where the constraint tags are read *)

Lemma any_business_constraint_iff (tag : string) (rs : Requirements.t) :
  any_business_constraint tag rs = true <->
  exists req c,
    In req (Requirements.business_requirements rs)
    /\ In c (BusinessRequirement.constraints req)
    /\ Occurs tag c.
Proof.
  unfold any_business_constraint. rewrite existsb_exists. split.
  - intros [req [Hreq H]]. apply any_in_iff in H as [c [Hc H]].
    exists req, c. auto.
  - intros [req [c [Hreq [Hc H]]]]. exists req. split; [assumption|].
    apply any_in_iff. exists c. auto.
Qed.

Lemma any_constraint_iff (tag : string) (rs : Requirements.t) :
  any_constraint tag rs = true <->
  exists c, In c (Requirements.constraints rs) /\ Occurs tag c.
Proof. apply any_in_iff. Qed.

(** ** Deployment strategy *)

(** C2, as stated, fails: with the high-availability tag among the
    constraint tags of the requirement set the strategy is canary, not
    blue-green. *)
Lemma C2_set_level_high_availability_is_canary :
  In "high_availability" (Requirements.constraints high_availability_at_set_level)
  /\ _get_deployment_strategy high_availability_at_set_level
     = "Canary deployment with gradual rollout"
  /\ _get_deployment_strategy high_availability_at_set_level
     <> "Blue-Green deployment with zero downtime".
Proof.
  split; [left; reflexivity|]. split; [reflexivity | discriminate].
Qed.

(** C2, amended. The strategy follows a fixed precedence rule whose two
    tests read different places: it is blue-green exactly when a constraint
    of some business requirement contains "high_availability"; otherwise it
    is rolling with cost optimization exactly when a constraint of the
    requirement set itself contains "budget_conscious"; otherwise it is
    canary. *)
Theorem C2_deployment_strategy_precedence (rs : Requirements.t) :
  (_get_deployment_strategy rs = "Blue-Green deployment with zero downtime"
   <-> business_tagged "high_availability" rs)
  /\ (_get_deployment_strategy rs = "Rolling deployment with cost optimization"
      <-> ~ business_tagged "high_availability" rs
          /\ set_tagged "budget_conscious" rs)
  /\ (_get_deployment_strategy rs = "Canary deployment with gradual rollout"
      <-> ~ business_tagged "high_availability" rs
          /\ ~ set_tagged "budget_conscious" rs).
Proof.
  unfold business_tagged, set_tagged.
  rewrite <- any_business_constraint_iff, <- any_constraint_iff.
  unfold _get_deployment_strategy.
  destruct (any_business_constraint "high_availability" rs);
    destruct (any_constraint "budget_conscious" rs);
    repeat split; intros; try tauto; try discriminate;
    try (exfalso; intuition congruence).
Qed.

(** ** Security considerations *)

(** C8, as stated, fails: with the PCI-DSS tag among the constraint tags of
    the requirement set no payment-compliance item is produced. *)
Lemma C8_set_level_pci_adds_no_item :
  In "PCI_DSS_compliance" (Requirements.constraints pci_at_set_level)
  /\ _get_security_considerations pci_at_set_level = baseline_considerations
  /\ ~ In payment_item (_get_security_considerations pci_at_set_level).
Proof.
  split; [left; reflexivity|]. split; [reflexivity|].
  simpl. intros [H|[H|[H|[]]]]; discriminate H.
Qed.

Lemma security_considerations_shape (rs : Requirements.t) :
  _get_security_considerations rs
  = (baseline_considerations
       ++ (if any_business_constraint "PCI_DSS_compliance" rs then [payment_item] else [])
       ++ (if any_constraint "data_privacy" rs then [privacy_item] else []))%list.
Proof.
  unfold _get_security_considerations.
  destruct (any_business_constraint "PCI_DSS_compliance" rs);
    destruct (any_constraint "data_privacy" rs); reflexivity.
Qed.

(** C8, amended. The list always starts with the three baseline items; the
    payment-compliance item is in it exactly when a constraint of some
    business requirement contains "PCI_DSS_compliance", the
    privacy-regulation item exactly when a constraint of the requirement set
    itself contains "data_privacy"; the list has no duplicates and keeps the
    fixed order baseline, payment, privacy. *)
Theorem C8_security_considerations (rs : Requirements.t) :
  let out := _get_security_considerations rs in
  firstn 3 out = baseline_considerations
  /\ (forall b, In b baseline_considerations -> In b out)
  /\ (In payment_item out <-> business_tagged "PCI_DSS_compliance" rs)
  /\ (In privacy_item out <-> set_tagged "data_privacy" rs)
  /\ NoDup out
  /\ out = filter (fun s => existsb (String.eqb s) out) consideration_order.
Proof.
  unfold business_tagged, set_tagged.
  rewrite <- any_business_constraint_iff, <- any_constraint_iff.
  cbv zeta. rewrite security_considerations_shape.
  destruct (any_business_constraint "PCI_DSS_compliance" rs);
    destruct (any_constraint "data_privacy" rs);
    (split; [reflexivity|]);
    (split; [intros b Hb; apply in_or_app; left; exact Hb|]);
    (split; [split; [reflexivity || (simpl; intros H; exfalso; intuition discriminate)
                    | intros H; try discriminate H; simpl; unfold payment_item; tauto]|]);
    (split; [split; [reflexivity || (simpl; intros H; exfalso; intuition discriminate)
                    | intros H; try discriminate H; simpl; unfold privacy_item; tauto]|]);
    (split; [| reflexivity]);
    simpl; repeat (constructor; [simpl; intros H; intuition discriminate|]);
    constructor.
Qed.

(** ** The service list of a run *)

(** No requirement description of the three templates contains a category
    keyword, so the service list chosen for analysed requirements is empty. *)
Lemma select_services_extracted (d : string) (p : CloudProvider) :
  select_services (extracted d) p = [].
Proof.
  unfold extracted.
  destruct (str_in "ecommerce" (lower d)); [reflexivity|].
  destruct (str_in "chatbot" (lower d)); [reflexivity|].
  destruct (str_in "expense" (lower d)); reflexivity.
Qed.

Lemma select_services_not_aws (rs : Requirements.t) (p : CloudProvider) :
  p <> AWS -> select_services rs p = [].
Proof.
  intros Hp. unfold select_services.
  destruct p; [contradiction| |];
    destruct (any_description "ecommerce" rs); try reflexivity;
    destruct (any_description "chatbot" rs); try reflexivity;
    destruct (any_description "expense" rs); reflexivity.
Qed.

(** ** Blank descriptions *)

(** C3, as stated, fails: on a description of three spaces requirements
    analysis returns normally, with the dictionary as created. *)
Lemma C3_blank_description_returns :
  blank "   " = true
  /\ result_of (analyze_requirements RequirementsAnalyzer.__init__ "   ") []
     = Returned no_requirements
  /\ result_of (analyze_requirements RequirementsAnalyzer.__init__ "   ") []
     <> Raised (Exn "InvalidInput").
Proof.
  split; [reflexivity|]. split; [reflexivity | discriminate].
Qed.

Lemma extracted_blank (d : string) : blank d = true -> extracted d = no_requirements.
Proof.
  intros H. unfold extracted.
  rewrite !str_in_blank by (reflexivity || exact H). reflexivity.
Qed.

(** C3, amended. On an empty or white-space-only description requirements
    analysis raises nothing: it returns the requirement dictionary with its
    four lists empty, and the pipeline goes on to return a recommendation
    built on it. *)
Theorem C3_blank_description_empty_requirements
        (o : MultiAgentOrchestrator.t) (a : RequirementsAnalyzer.t)
        (d : string) (p : CloudProvider) (l : Log) :
  blank d = true ->
  result_of (analyze_requirements a d) l = Returned no_requirements
  /\ exists r,
       result_of (process_architecture_request o d p) l = Returned r
       /\ FinalRecommendation.requirements r = no_requirements.
Proof.
  intros H. split.
  - now rewrite analyze_requirements_returns, extracted_blank.
  - eexists. rewrite process_architecture_request_returns.
    split; [reflexivity|]. simpl. now apply extracted_blank.
Qed.

Lemma C3_blank_description_empty_requirements_witness :
  result_of (analyze_requirements RequirementsAnalyzer.__init__ "  ") []
  = Returned no_requirements
  /\ exists r,
       result_of (process_architecture_request MultiAgentOrchestrator.__init__
                    "  " AWS) [] = Returned r
       /\ FinalRecommendation.requirements r = no_requirements.
Proof.
  apply (C3_blank_description_empty_requirements
           MultiAgentOrchestrator.__init__ RequirementsAnalyzer.__init__ "  " AWS []).
  reflexivity.
Defined.

(** ** Descriptions with no keyword *)

(** C4, as stated, fails: on a description with no keyword the run returns
    no business requirement at all, and a confidence above 0.3. *)
Lemma C4_unmatched_description_confidence :
  first_match "asdkj qpwoe random text" = None
  /\ exists r,
       result_of (process_architecture_request MultiAgentOrchestrator.__init__
                    "asdkj qpwoe random text" AWS) [] = Returned r
       /\ Requirements.business_requirements (FinalRecommendation.requirements r) = []
       /\ PrimFloat.leb (FinalRecommendation.confidence_score r) 0.3%float = false.
Proof.
  split; [reflexivity|].
  eexists. rewrite process_architecture_request_returns.
  split; [reflexivity|]. split; reflexivity.
Qed.

(** C4, amended. On a description that contains none of the keywords the
    pipeline does not abort: requirements analysis returns the requirement
    dictionary with its four lists empty, and the run returns a
    recommendation that repeats the description, has an empty service list,
    the canary strategy, exactly the three baseline security considerations,
    the confidence 0.85 and the fixed next steps. *)
Theorem C4_unmatched_description
        (o : MultiAgentOrchestrator.t) (d : string) (p : CloudProvider) (l : Log) :
  ~ Occurs "ecommerce" (lower d) ->
  ~ Occurs "chatbot" (lower d) ->
  ~ Occurs "expense" (lower d) ->
  exists r,
    result_of (process_architecture_request o d p) l = Returned r
    /\ FinalRecommendation.problem_description r = d
    /\ FinalRecommendation.requirements r = no_requirements
    /\ ArchitectureRecommendation.services (FinalRecommendation.architecture r) = []
    /\ ArchitectureRecommendation.deployment_strategy (FinalRecommendation.architecture r)
       = "Canary deployment with gradual rollout"
    /\ ArchitectureRecommendation.security_considerations
         (FinalRecommendation.architecture r) = baseline_considerations
    /\ FinalRecommendation.confidence_score r = 0.85%float
    /\ FinalRecommendation.next_steps r = next_steps_checklist.
Proof.
  intros H1 H2 H3.
  assert (E : extracted d = no_requirements).
  { rewrite extracted_first_match.
    now rewrite (proj2 (first_match_none d) (conj H1 (conj H2 H3))). }
  eexists. rewrite process_architecture_request_returns.
  split; [reflexivity|]. simpl. rewrite E. repeat split; reflexivity.
Qed.

Lemma C4_unmatched_description_witness :
  exists r,
    result_of (process_architecture_request MultiAgentOrchestrator.__init__
                 "asdkj qpwoe random text" AWS) [] = Returned r
    /\ FinalRecommendation.problem_description r = "asdkj qpwoe random text"
    /\ FinalRecommendation.requirements r = no_requirements
    /\ ArchitectureRecommendation.services (FinalRecommendation.architecture r) = []
    /\ ArchitectureRecommendation.deployment_strategy (FinalRecommendation.architecture r)
       = "Canary deployment with gradual rollout"
    /\ ArchitectureRecommendation.security_considerations
         (FinalRecommendation.architecture r) = baseline_considerations
    /\ FinalRecommendation.confidence_score r = 0.85%float
    /\ FinalRecommendation.next_steps r = next_steps_checklist.
Proof.
  apply (C4_unmatched_description MultiAgentOrchestrator.__init__
           "asdkj qpwoe random text" AWS []);
    apply str_in_false_iff; reflexivity.
Defined.

(** ** Providers other than AWS *)

(** C5, as stated, fails: for e-commerce on Azure the service list is empty
    (not the AWS list), the strategy text is the one of AWS unchanged, and
    the confidence is 0.85, not 0.5. *)
Lemma C5_azure_no_fallback :
  _design_ecommerce_architecture AZURE = []
  /\ _design_ecommerce_architecture AWS <> []
  /\ exists r,
       result_of (design_architecture CloudArchitect.__init__
                    ecommerce_requirements AZURE) [] = Returned r
       /\ ArchitectureRecommendation.services r = []
       /\ ArchitectureRecommendation.deployment_strategy r
          = "Blue-Green deployment with zero downtime"
       /\ PrimFloat.eqb (ArchitectureRecommendation.confidence_score r) 0.5%float = false.
Proof.
  split; [reflexivity|]. split; [discriminate|].
  eexists. rewrite design_architecture_returns.
  split; [reflexivity|]. repeat split; reflexivity.
Qed.

(** C5, amended. For every category and every provider other than AWS the
    design function of the category returns the empty list; synthesis then
    returns an empty service list, the deployment strategy decided by the
    requirements alone (the text it has for AWS, with no mark of a
    substitution) and the confidence 0.85. *)
Theorem C5_other_providers_empty
        (a : CloudArchitect.t) (rs : Requirements.t) (p : CloudProvider) (l : Log) :
  p <> AWS ->
  _design_ecommerce_architecture p = []
  /\ _design_chatbot_architecture p = []
  /\ _design_expense_tracker_architecture p = []
  /\ exists r,
       result_of (design_architecture a rs p) l = Returned r
       /\ ArchitectureRecommendation.services r = []
       /\ ArchitectureRecommendation.deployment_strategy r = _get_deployment_strategy rs
       /\ (forall r', result_of (design_architecture a rs AWS) l = Returned r' ->
           ArchitectureRecommendation.deployment_strategy r
           = ArchitectureRecommendation.deployment_strategy r')
       /\ ArchitectureRecommendation.confidence_score r = 0.85%float.
Proof.
  intros Hp.
  repeat (split; [destruct p; [contradiction | reflexivity | reflexivity]|]).
  eexists. rewrite design_architecture_returns.
  split; [reflexivity|]. simpl.
  split; [now apply select_services_not_aws|].
  split; [reflexivity|]. split; [|reflexivity].
  intros r'. rewrite design_architecture_returns. intros H.
  injection H as <-. reflexivity.
Qed.

Lemma C5_other_providers_empty_witness :
  _design_ecommerce_architecture GCP = []
  /\ _design_chatbot_architecture GCP = []
  /\ _design_expense_tracker_architecture GCP = []
  /\ exists r,
       result_of (design_architecture CloudArchitect.__init__
                    chatbot_requirements GCP) [] = Returned r
       /\ ArchitectureRecommendation.services r = []
       /\ ArchitectureRecommendation.deployment_strategy r
          = _get_deployment_strategy chatbot_requirements
       /\ (forall r',
              result_of (design_architecture CloudArchitect.__init__
                           chatbot_requirements AWS) [] = Returned r' ->
              ArchitectureRecommendation.deployment_strategy r
              = ArchitectureRecommendation.deployment_strategy r')
       /\ ArchitectureRecommendation.confidence_score r = 0.85%float.
Proof.
  apply (C5_other_providers_empty CloudArchitect.__init__ chatbot_requirements GCP []).
  discriminate.
Defined.

(** ** Overall confidence *)

(** C6, as stated, fails: on a description with no keyword, where the
    specification gives the classification the confidence 0.0 and the
    extraction 0.3, and with no failed specialist, the mean of the three
    stage confidences is below the overall score the run returns. *)
Lemma C6_overall_is_not_the_mean :
  exists r,
    result_of (process_architecture_request MultiAgentOrchestrator.__init__
                 "asdkj qpwoe random text" AWS) [] = Returned r
    /\ PrimFloat.ltb
         (spec_overall_confidence 0%float 0.3%float
            (ArchitectureRecommendation.confidence_score
               (FinalRecommendation.architecture r)) 0)
         (FinalRecommendation.confidence_score r) = true
    /\ FinalRecommendation.confidence_score r
       <> spec_overall_confidence 0%float 0.3%float
            (ArchitectureRecommendation.confidence_score
               (FinalRecommendation.architecture r)) 0.
Proof.
  eexists. rewrite process_architecture_request_returns.
  split; [reflexivity|]. split; [reflexivity|].
  simpl. intros H.
  assert (E : PrimFloat.ltb 0.85%float 0.5%float = false) by reflexivity.
  rewrite H in E. vm_compute in E. discriminate E.
Qed.

(** C6, amended. The overall confidence of every run is the confidence of
    the synthesis stage alone, which is 0.85: no classification or
    extraction confidence enters it and no specialist penalty is applied. *)
Theorem C6_overall_confidence_is_synthesis_confidence
        (o : MultiAgentOrchestrator.t) (d : string) (p : CloudProvider) (l : Log) :
  exists r,
    result_of (process_architecture_request o d p) l = Returned r
    /\ FinalRecommendation.confidence_score r
       = ArchitectureRecommendation.confidence_score (FinalRecommendation.architecture r)
    /\ FinalRecommendation.confidence_score r = 0.85%float.
Proof.
  eexists. rewrite process_architecture_request_returns.
  split; [reflexivity|]. split; reflexivity.
Qed.

(** ** The e-commerce scenario *)

(** C7, as stated, fails: on an e-commerce description with the default
    provider the strategy is blue-green, not rolling, and the service list
    of the run is empty. *)
Lemma C7_ecommerce_run_is_blue_green :
  exists r,
    result_of (process_architecture_request MultiAgentOrchestrator.__init__
                 "Simple ecommerce site for a small business" AWS) [] = Returned r
    /\ ArchitectureRecommendation.deployment_strategy (FinalRecommendation.architecture r)
       = "Blue-Green deployment with zero downtime"
    /\ ArchitectureRecommendation.deployment_strategy (FinalRecommendation.architecture r)
       <> "Rolling deployment with cost optimization"
    /\ offers "compute"
         (ArchitectureRecommendation.services (FinalRecommendation.architecture r))
       = false.
Proof.
  eexists. rewrite process_architecture_request_returns.
  split; [reflexivity|]. split; [reflexivity|]. split; [discriminate | reflexivity].
Qed.

(** C7, amended. On a description whose lowered text contains "ecommerce",
    with the default provider, the run returns the e-commerce requirement
    set, the category label e-commerce, the strategy "Blue-Green deployment
    with zero downtime" (the first business requirement of the set carries
    the high-availability constraint) and an overall confidence of at least
    0.8; and the e-commerce service list of the default provider has a
    compute, a database, a storage and a networking service. *)
Theorem C7_ecommerce_scenario
        (o : MultiAgentOrchestrator.t) (d : string) (l : Log) :
  Occurs "ecommerce" (lower d) ->
  (exists r,
     result_of (process_architecture_request o d AWS) l = Returned r
     /\ FinalRecommendation.requirements r = ecommerce_requirements
     /\ ArchitectureRecommendation.architecture_type (FinalRecommendation.architecture r)
        = ECOMMERCE
     /\ ArchitectureRecommendation.deployment_strategy (FinalRecommendation.architecture r)
        = "Blue-Green deployment with zero downtime"
     /\ PrimFloat.leb 0.8%float (FinalRecommendation.confidence_score r) = true)
  /\ offers "compute" (_design_ecommerce_architecture AWS) = true
  /\ offers "database" (_design_ecommerce_architecture AWS) = true
  /\ offers "storage" (_design_ecommerce_architecture AWS) = true
  /\ offers "networking" (_design_ecommerce_architecture AWS) = true.
Proof.
  intros H. apply str_in_iff in H.
  assert (E : extracted d = ecommerce_requirements).
  { unfold extracted. now rewrite H. }
  split; [|repeat split; reflexivity].
  eexists. rewrite process_architecture_request_returns.
  split; [reflexivity|]. simpl. rewrite E. repeat split; reflexivity.
Qed.

Lemma C7_ecommerce_scenario_witness :
  (exists r,
     result_of (process_architecture_request MultiAgentOrchestrator.__init__
                  "Simple Ecommerce site" AWS) [] = Returned r
     /\ FinalRecommendation.requirements r = ecommerce_requirements
     /\ ArchitectureRecommendation.architecture_type (FinalRecommendation.architecture r)
        = ECOMMERCE
     /\ ArchitectureRecommendation.deployment_strategy (FinalRecommendation.architecture r)
        = "Blue-Green deployment with zero downtime"
     /\ PrimFloat.leb 0.8%float (FinalRecommendation.confidence_score r) = true)
  /\ offers "compute" (_design_ecommerce_architecture AWS) = true
  /\ offers "database" (_design_ecommerce_architecture AWS) = true
  /\ offers "storage" (_design_ecommerce_architecture AWS) = true
  /\ offers "networking" (_design_ecommerce_architecture AWS) = true.
Proof.
  apply (C7_ecommerce_scenario MultiAgentOrchestrator.__init__
           "Simple Ecommerce site" []).
  exists "simple ", " site". reflexivity.
Defined.

(** * Further properties of the agents *)

(** ** Lowering and surrounding text *)

Lemma lower_char_idempotent (c : ascii) : lower_char (lower_char c) = lower_char c.
Proof. destruct c as [[] [] [] [] [] [] [] []]; reflexivity. Qed.

Lemma lower_idempotent (s : string) : lower (lower s) = lower s.
Proof.
  induction s as [|c s IH]; simpl; [reflexivity|].
  now rewrite lower_char_idempotent, IH.
Qed.

Lemma lower_append (a b : string) : lower (a ++ b) = lower a ++ lower b.
Proof.
  induction a as [|c a IH]; simpl; [reflexivity | now rewrite IH].
Qed.

Lemma string_append_assoc (a b c : string) : (a ++ b) ++ c = a ++ (b ++ c).
Proof.
  induction a as [|x a IH]; simpl; [reflexivity | now rewrite IH].
Qed.

Lemma Occurs_context (k s pre post : string) :
  Occurs k s -> Occurs k (pre ++ s ++ post).
Proof.
  intros [u [v H]]. exists (pre ++ u), (v ++ post). rewrite H.
  now rewrite !string_append_assoc.
Qed.

Lemma extracted_cases (d : string) :
  extracted d = ecommerce_requirements \/ extracted d = chatbot_requirements
  \/ extracted d = expense_requirements \/ extracted d = no_requirements.
Proof.
  unfold extracted.
  destruct (str_in "ecommerce" (lower d)); [tauto|].
  destruct (str_in "chatbot" (lower d)); [tauto|].
  destruct (str_in "expense" (lower d)); tauto.
Qed.

(** X5. Detection ignores case: analysing the lowered description returns
    what analysing the description returns. *)
Theorem X5_analysis_ignores_case
        (a : RequirementsAnalyzer.t) (d : string) (l : Log) :
  result_of (analyze_requirements a (lower d)) l
  = result_of (analyze_requirements a d) l.
Proof.
  rewrite !analyze_requirements_returns. unfold extracted.
  now rewrite lower_idempotent.
Qed.

(** X6. An e-commerce description stays one inside any surrounding text:
    when "ecommerce" occurs in the lowered description, every description
    made of it with text before and after gets the e-commerce requirements. *)
Theorem X6_ecommerce_survives_context
        (a : RequirementsAnalyzer.t) (d pre post : string) (l : Log) :
  Occurs "ecommerce" (lower d) ->
  result_of (analyze_requirements a (pre ++ d ++ post)) l
  = Returned ecommerce_requirements.
Proof.
  intros H. rewrite analyze_requirements_returns. unfold extracted.
  rewrite !lower_append.
  apply (Occurs_context _ _ (lower pre) (lower post)) in H.
  apply str_in_iff in H. now rewrite H.
Qed.

Lemma X6_ecommerce_survives_context_witness :
  result_of (analyze_requirements RequirementsAnalyzer.__init__
               ("A chatbot, then " ++ "an ECOMMERCE shop" ++ " with expense reports")) []
  = Returned ecommerce_requirements.
Proof.
  apply (X6_ecommerce_survives_context RequirementsAnalyzer.__init__
           "an ECOMMERCE shop" "A chatbot, then " " with expense reports" []).
  exists "an ", " shop". reflexivity.
Defined.

(** X7. Requirements analysis returns business requirements exactly when
    one of the three keywords occurs in the lowered description; it then
    fills the other three lists as well. *)
Theorem X7_requirements_iff_keyword
        (a : RequirementsAnalyzer.t) (d : string) (l : Log) :
  exists rs,
    result_of (analyze_requirements a d) l = Returned rs
    /\ (Requirements.business_requirements rs <> []
        <-> Occurs "ecommerce" (lower d) \/ Occurs "chatbot" (lower d)
            \/ Occurs "expense" (lower d))
    /\ (Requirements.business_requirements rs <> [] ->
        Requirements.technical_requirements rs <> []
        /\ Requirements.constraints rs <> []
        /\ Requirements.success_metrics rs <> []).
Proof.
  eexists. rewrite analyze_requirements_returns. split; [reflexivity|].
  rewrite <- !str_in_iff. unfold extracted.
  destruct (str_in "ecommerce" (lower d));
    [|destruct (str_in "chatbot" (lower d));
      [|destruct (str_in "expense" (lower d))]].
  4: { split; [split|].
       - intros H. now contradiction H.
       - intros [H|[H|H]]; discriminate H.
       - intros H. now contradiction H. }
  all: split; [split|].
  all: try (intros _; tauto).
  all: try (intros _; discriminate).
  all: intros _; repeat split; discriminate.
Qed.

(** ** What every run returns *)

(** X1. No run recommends a service: whatever the description and the
    provider, the service list of the returned recommendation is empty,
    because no requirement description of the templates contains a keyword
    that [design_architecture] looks for. *)
Theorem X1_run_recommends_no_service
        (o : MultiAgentOrchestrator.t) (d : string) (p : CloudProvider) (l : Log) :
  exists r,
    result_of (process_architecture_request o d p) l = Returned r
    /\ ArchitectureRecommendation.services (FinalRecommendation.architecture r) = [].
Proof.
  eexists. rewrite process_architecture_request_returns.
  split; [reflexivity|]. simpl. apply select_services_extracted.
Qed.

(** X2. The strategy of a run is blue-green exactly when "ecommerce" occurs
    in the lowered description and canary otherwise; no run returns the
    rolling strategy. *)
Theorem X2_run_strategy
        (o : MultiAgentOrchestrator.t) (d : string) (p : CloudProvider) (l : Log) :
  exists r,
    result_of (process_architecture_request o d p) l = Returned r
    /\ (ArchitectureRecommendation.deployment_strategy (FinalRecommendation.architecture r)
        = "Blue-Green deployment with zero downtime"
        <-> Occurs "ecommerce" (lower d))
    /\ (ArchitectureRecommendation.deployment_strategy (FinalRecommendation.architecture r)
        = "Canary deployment with gradual rollout"
        <-> ~ Occurs "ecommerce" (lower d))
    /\ ArchitectureRecommendation.deployment_strategy (FinalRecommendation.architecture r)
       <> "Rolling deployment with cost optimization".
Proof.
  eexists. rewrite process_architecture_request_returns.
  split; [reflexivity|]. simpl.
  rewrite <- str_in_false_iff, <- str_in_iff. unfold extracted.
  destruct (str_in "ecommerce" (lower d));
    [|destruct (str_in "chatbot" (lower d));
      [|destruct (str_in "expense" (lower d))]];
    (split; [|split]); try discriminate; split; intros H;
    try reflexivity; discriminate H.
Qed.

(** X3. Among the security considerations of a run the payment-compliance
    item appears exactly when the e-commerce branch supplied the
    requirements and the privacy item exactly when the expense branch did;
    no run returns both. *)
Theorem X3_run_security_items
        (o : MultiAgentOrchestrator.t) (d : string) (p : CloudProvider) (l : Log) :
  exists r,
    result_of (process_architecture_request o d p) l = Returned r
    /\ (In payment_item
           (ArchitectureRecommendation.security_considerations
              (FinalRecommendation.architecture r))
        <-> first_match d = Some ECOMMERCE)
    /\ (In privacy_item
           (ArchitectureRecommendation.security_considerations
              (FinalRecommendation.architecture r))
        <-> first_match d = Some EXPENSE_TRACKER)
    /\ ~ (In payment_item
            (ArchitectureRecommendation.security_considerations
               (FinalRecommendation.architecture r))
          /\ In privacy_item
               (ArchitectureRecommendation.security_considerations
                  (FinalRecommendation.architecture r))).
Proof.
  eexists. rewrite process_architecture_request_returns.
  split; [reflexivity|]. simpl.
  rewrite extracted_first_match. unfold first_match; simpl.
  destruct (str_in "ecommerce" (lower d));
    [|destruct (str_in "chatbot" (lower d));
      [|destruct (str_in "expense" (lower d))]];
    simpl; unfold payment_item, privacy_item;
    (split; [|split]);
    try (split; intros H; try discriminate H; intuition discriminate);
    intuition discriminate.
Qed.

(** X4. The preferred provider has no effect on what a run returns: two
    runs on the same description return the same recommendation whatever
    the two providers. *)
Theorem X4_run_ignores_provider
        (o : MultiAgentOrchestrator.t) (d : string) (p1 p2 : CloudProvider) (l : Log) :
  result_of (process_architecture_request o d p1) l
  = result_of (process_architecture_request o d p2) l.
Proof.
  rewrite !process_architecture_request_returns. unfold designed.
  now rewrite !select_services_extracted.
Qed.

(** X16. A run keeps the log it finds and adds three messages to it: the
    start of the process, then the analyzer's message with the description,
    then the architect's message with the value of the provider. *)
Theorem X16_run_log
        (o : MultiAgentOrchestrator.t) (d : string) (p : CloudProvider) (l : Log) :
  log_after (process_architecture_request o d p) l = (l ++ run_messages o d p)%list.
Proof.
  unfold log_after, process_architecture_request, analyze_requirements,
    design_architecture, bind, logger_info, ret, run_messages. simpl.
  now rewrite <- !app_assoc.
Qed.

(** ** The requirement templates *)

(** X8. Every business requirement that requirements analysis returns has a
    priority from 1 to 5, the range the data class documents. *)
Theorem X8_priorities_in_range
        (a : RequirementsAnalyzer.t) (d : string) (l : Log) :
  exists rs,
    result_of (analyze_requirements a d) l = Returned rs
    /\ Forall (fun req => (1 <= BusinessRequirement.priority req <= 5)%Z)
              (Requirements.business_requirements rs).
Proof.
  eexists. rewrite analyze_requirements_returns. split; [reflexivity|].
  destruct (extracted_cases d) as [E|[E|[E|E]]]; rewrite E; simpl;
    repeat constructor; simpl; lia.
Qed.

(** X10. Requirements analysis lists the business requirements from the
    highest priority to the lowest. *)
Theorem X10_priorities_descend
        (a : RequirementsAnalyzer.t) (d : string) (l : Log) :
  exists rs,
    result_of (analyze_requirements a d) l = Returned rs
    /\ StronglySorted
         (fun r1 r2 => (BusinessRequirement.priority r2 <= BusinessRequirement.priority r1)%Z)
         (Requirements.business_requirements rs).
Proof.
  eexists. rewrite analyze_requirements_returns. split; [reflexivity|].
  destruct (extracted_cases d) as [E|[E|[E|E]]]; rewrite E; simpl;
    repeat (constructor; simpl; try lia).
Qed.

Lemma dependencies_defined_sound (ts : list TechnicalRequirement.t) :
  forall seen,
    dependencies_defined seen ts = true ->
    forall before t after dep,
      ts = (before ++ t :: after)%list ->
      In dep (TechnicalRequirement.dependencies t) ->
      In dep (map TechnicalRequirement.component before) \/ In dep seen.
Proof.
  induction ts as [|t0 rest IH]; intros seen Hd before t after dep Hts Hdep.
  - destruct before; discriminate Hts.
  - simpl in Hd. apply andb_true_iff in Hd as [Hhere Hrest].
    destruct before as [|b before]; simpl in Hts; injection Hts as -> Hts.
    + right. rewrite forallb_forall in Hhere.
      specialize (Hhere dep Hdep). apply existsb_exists in Hhere as [x [Hx Heq]].
      apply String.eqb_eq in Heq. now subst x.
    + destruct (IH _ Hrest before t after dep Hts Hdep) as [H|[H|H]].
      * left. simpl. now right.
      * left. simpl. now left.
      * now right.
Qed.

(** X9. In the technical requirements that requirements analysis returns,
    every dependency names a component listed earlier in the same list: the
    dependencies form no cycle and none is left undefined. *)
Theorem X9_dependencies_listed_earlier
        (a : RequirementsAnalyzer.t) (d : string) (l : Log) :
  exists rs,
    result_of (analyze_requirements a d) l = Returned rs
    /\ dependencies_earlier (Requirements.technical_requirements rs).
Proof.
  eexists. rewrite analyze_requirements_returns. split; [reflexivity|].
  intros before t after dep Hts Hdep.
  assert (Hd : dependencies_defined [] (Requirements.technical_requirements (extracted d))
               = true).
  { destruct (extracted_cases d) as [E|[E|[E|E]]]; rewrite E; reflexivity. }
  destruct (dependencies_defined_sound _ _ Hd before t after dep Hts Hdep) as [H|[]].
  exact H.
Qed.

(** ** The service lists *)

(** X11. Each design function returns services of the provider it was asked
    for, and of no other. *)
Theorem X11_services_of_requested_provider (p : CloudProvider) :
  Forall (fun s => CloudService.provider s = p) (_design_ecommerce_architecture p)
  /\ Forall (fun s => CloudService.provider s = p) (_design_chatbot_architecture p)
  /\ Forall (fun s => CloudService.provider s = p)
            (_design_expense_tracker_architecture p).
Proof.
  destruct p; simpl; repeat split; repeat constructor.
Qed.

(** X17. Within each list a design function returns, no two services share
    a name. *)
Theorem X17_service_names_distinct (p : CloudProvider) :
  NoDup (map CloudService.name (_design_ecommerce_architecture p))
  /\ NoDup (map CloudService.name (_design_chatbot_architecture p))
  /\ NoDup (map CloudService.name (_design_expense_tracker_architecture p)).
Proof.
  destruct p; simpl; repeat split;
    repeat (constructor; [simpl; intuition discriminate|]); constructor.
Qed.

(** ** The architect on arbitrary requirements *)

Lemma any_description_iff (word : string) (rs : Requirements.t) :
  any_description word rs = true <-> described word rs.
Proof.
  unfold any_description, described. rewrite existsb_exists.
  split; intros [req [Hin H]]; exists req; split; auto; now apply str_in_iff.
Qed.

(** X12. For AWS the architect returns a non-empty service list exactly
    when the description of some business requirement contains, once
    lowered, one of the three keywords. *)
Theorem X12_services_iff_described
        (a : CloudArchitect.t) (rs : Requirements.t) (l : Log) :
  exists r,
    result_of (design_architecture a rs AWS) l = Returned r
    /\ (ArchitectureRecommendation.services r <> []
        <-> described "ecommerce" rs \/ described "chatbot" rs
            \/ described "expense" rs).
Proof.
  eexists. rewrite design_architecture_returns. split; [reflexivity|].
  simpl. rewrite <- !any_description_iff. unfold select_services.
  destruct (any_description "ecommerce" rs);
    [|destruct (any_description "chatbot" rs);
      [|destruct (any_description "expense" rs)]].
  4: { split; [intros H; now contradiction H | intros [H|[H|H]]; discriminate H]. }
  all: split; [intros _; tauto | intros _; discriminate].
Qed.

(** X13. The architect chooses the service list by the first keyword, in
    the order e-commerce, chatbot, expense, that the description of some
    business requirement contains; with none it returns no service. *)
Theorem X13_architect_first_match
        (a : CloudArchitect.t) (rs : Requirements.t) (p : CloudProvider) (l : Log) :
  exists r,
    result_of (design_architecture a rs p) l = Returned r
    /\ (described "ecommerce" rs ->
        ArchitectureRecommendation.services r = _design_ecommerce_architecture p)
    /\ (~ described "ecommerce" rs -> described "chatbot" rs ->
        ArchitectureRecommendation.services r = _design_chatbot_architecture p)
    /\ (~ described "ecommerce" rs -> ~ described "chatbot" rs ->
        described "expense" rs ->
        ArchitectureRecommendation.services r = _design_expense_tracker_architecture p)
    /\ (~ described "ecommerce" rs -> ~ described "chatbot" rs ->
        ~ described "expense" rs ->
        ArchitectureRecommendation.services r = []).
Proof.
  eexists. rewrite design_architecture_returns. split; [reflexivity|].
  simpl. rewrite <- !any_description_iff.
  unfold select_services.
  destruct (any_description "ecommerce" rs);
    destruct (any_description "chatbot" rs);
    destruct (any_description "expense" rs);
    repeat split; intros; congruence.
Qed.

(** A requirement set written by hand, whose descriptions name two
    categories. *)
Example architect_prefers_ecommerce :
  exists r,
    result_of (design_architecture CloudArchitect.__init__
                 (Requirements.mk
                    [BusinessRequirement.mk "Chatbot for support" 4 "functionality" [];
                     BusinessRequirement.mk "Ecommerce storefront" 5 "scalability" []]
                    [] [] [])
                 AWS) [] = Returned r
    /\ ArchitectureRecommendation.services r = _design_ecommerce_architecture AWS.
Proof. eexists. split; reflexivity. Qed.

(** X14. The architect reads the business requirements and the constraints
    only: two requirement sets that agree on these two lists get the same
    recommendation, whatever their technical requirements and success
    metrics. *)
Theorem X14_architect_reads_two_lists
        (a : CloudArchitect.t) (rs rs' : Requirements.t) (p : CloudProvider) (l : Log) :
  Requirements.business_requirements rs = Requirements.business_requirements rs' ->
  Requirements.constraints rs = Requirements.constraints rs' ->
  result_of (design_architecture a rs p) l
  = result_of (design_architecture a rs' p) l.
Proof.
  intros Hb Hc. rewrite !design_architecture_returns.
  destruct rs as [b t c m], rs' as [b' t' c' m']. simpl in Hb, Hc. subst b' c'.
  reflexivity.
Qed.

Lemma X14_architect_reads_two_lists_witness :
  result_of (design_architecture CloudArchitect.__init__ ecommerce_requirements AWS) []
  = result_of (design_architecture CloudArchitect.__init__
                 (Requirements.mk
                    (Requirements.business_requirements ecommerce_requirements)
                    []
                    (Requirements.constraints ecommerce_requirements)
                    ["uptime"])
                 AWS) [].
Proof.
  apply (X14_architect_reads_two_lists CloudArchitect.__init__
           ecommerce_requirements
           (Requirements.mk
              (Requirements.business_requirements ecommerce_requirements)
              []
              (Requirements.constraints ecommerce_requirements)
              ["uptime"])
           AWS []); reflexivity.
Defined.

Lemma business_tagged_incl (tag : string) (rs rs' : Requirements.t) :
  incl (Requirements.business_requirements rs) (Requirements.business_requirements rs') ->
  any_business_constraint tag rs = true -> any_business_constraint tag rs' = true.
Proof.
  intros Hb. rewrite !any_business_constraint_iff.
  intros [req [c [Hreq H]]]. exists req, c. split; [now apply Hb | exact H].
Qed.

Lemma set_tagged_incl (tag : string) (rs rs' : Requirements.t) :
  incl (Requirements.constraints rs) (Requirements.constraints rs') ->
  any_constraint tag rs = true -> any_constraint tag rs' = true.
Proof.
  intros Hc. rewrite !any_constraint_iff.
  intros [c [Hin H]]. exists c. split; [now apply Hc | exact H].
Qed.

(** X15. Security considerations only grow with the requirements: when
    every business requirement and every constraint of one requirement set
    is also in another, every consideration of the first is one of the
    second. *)
Theorem X15_security_considerations_grow (rs rs' : Requirements.t) :
  incl (Requirements.business_requirements rs) (Requirements.business_requirements rs') ->
  incl (Requirements.constraints rs) (Requirements.constraints rs') ->
  incl (_get_security_considerations rs) (_get_security_considerations rs').
Proof.
  intros Hb Hc x. rewrite !security_considerations_shape, !in_app_iff.
  intros [H|[H|H]]; [now left | |].
  - destruct (any_business_constraint "PCI_DSS_compliance" rs) eqn:E; [|destruct H].
    rewrite (business_tagged_incl _ _ _ Hb E). tauto.
  - destruct (any_constraint "data_privacy" rs) eqn:E; [|destruct H].
    rewrite (set_tagged_incl _ _ _ Hc E). tauto.
Qed.

Lemma X15_security_considerations_grow_witness :
  incl (_get_security_considerations chatbot_requirements)
       (_get_security_considerations
          (Requirements.mk
             (Requirements.business_requirements ecommerce_requirements
                ++ Requirements.business_requirements chatbot_requirements)%list
             []
             ("data_privacy" :: Requirements.constraints chatbot_requirements)
             [])).
Proof.
  apply (X15_security_considerations_grow chatbot_requirements
           (Requirements.mk
              (Requirements.business_requirements ecommerce_requirements
                 ++ Requirements.business_requirements chatbot_requirements)%list
              []
              ("data_privacy" :: Requirements.constraints chatbot_requirements)
              [])).
  - apply incl_appr, incl_refl.
  - apply incl_tl, incl_refl.
Defined.

(** X18. Blue-green is kept under added requirements: when a requirement
    set gets the blue-green strategy, so does every requirement set that has
    all its business requirements, whatever else it holds. *)
Theorem X18_blue_green_kept (rs rs' : Requirements.t) :
  incl (Requirements.business_requirements rs) (Requirements.business_requirements rs') ->
  _get_deployment_strategy rs = "Blue-Green deployment with zero downtime" ->
  _get_deployment_strategy rs' = "Blue-Green deployment with zero downtime".
Proof.
  intros Hb. unfold _get_deployment_strategy.
  destruct (any_business_constraint "high_availability" rs) eqn:E.
  - intros _. now rewrite (business_tagged_incl _ _ _ Hb E).
  - destruct (any_constraint "budget_conscious" rs); discriminate.
Qed.

Lemma X18_blue_green_kept_witness :
  _get_deployment_strategy
    (Requirements.mk
       (Requirements.business_requirements chatbot_requirements
          ++ Requirements.business_requirements ecommerce_requirements)%list
       [] ["budget_conscious"] [])
  = "Blue-Green deployment with zero downtime".
Proof.
  apply (X18_blue_green_kept ecommerce_requirements
           (Requirements.mk
              (Requirements.business_requirements chatbot_requirements
                 ++ Requirements.business_requirements ecommerce_requirements)%list
              [] ["budget_conscious"] [])).
  - apply incl_appr, incl_refl.
  - reflexivity.
Defined.
